(** * The record codec of [src/record.js]

    A shallow embedding of [Record], [Record.fromZoneRecord_],
    [Record.prototype.toJSON] and [Record.prototype.toString], together with
    the three small npm packages the file calls ([arrify], [extend] and
    [string-format-obj]), and the properties of the codec.

    JavaScript objects are finite maps from property names to values; the
    methods of a record run in a small state-and-exception monad whose state
    is the record object [this]. *)

From Stdlib Require Import Ascii ZArith DecimalString.
From stdpp Require Import gmap strings list fin_maps.

Set Warnings "-register-all".
Open Scope string_scope.

(** ** JavaScript values and the library functions used by the codec *)
Module JS.

(** Values.  Strings are sequences of 8-bit characters: the model covers
    ASCII text, which is what record types, names and zone data are made of.
    Numbers are the integers (a TTL, a priority, a serial), printed in
    decimal.  Objects are plain objects: they own their properties and
    inherit nothing enumerable. *)
Inductive value : Type :=
| Undefined
| Null
| Bool (b : bool)
| Num (n : Z)
| Str (s : string)
| Arr (l : list value)
| Obj (o : gmap string value).

Abbreviation obj := (gmap string value).

(** Reading a property, [o.k] or [o[k]]: a missing property reads as
    [undefined]. *)
Definition get (o : obj) (k : string) : value := default Undefined (o !! k).

(** ToBoolean: what [if (v)] and [v || w] test. *)
Definition truthy (v : value) : bool :=
  match v with
  | Undefined | Null => false
  | Bool b => b
  | Num n => negb (n =? 0)%Z
  | Str s => negb (String.eqb s "")
  | Arr _ | Obj _ => true
  end.

Definition string_of_Z (n : Z) : string := NilZero.string_of_int (Z.to_int n).
Definition string_of_nat (n : nat) : string := NilZero.string_of_uint (Nat.to_uint n).

(** [sep.join(l)] on a list of strings. *)
Fixpoint join (sep : string) (l : list string) : string :=
  match l with
  | [] => ""
  | [s] => s
  | s :: l' => s +:+ sep +:+ join sep l'
  end.

(** ToString, the conversion [String.prototype.replace] applies to what its
    callback returns.  An array is its elements joined by commas, with
    [null] and [undefined] elements printed as nothing. *)
Fixpoint ToString (v : value) : string :=
  match v with
  | Undefined => "undefined"
  | Null => "null"
  | Bool true => "true"
  | Bool false => "false"
  | Num n => string_of_Z n
  | Str s => s
  | Arr l =>
      join "," (List.map (fun x => match x with
                                   | Undefined | Null => ""
                                   | _ => ToString x
                                   end) l)
  | Obj _ => "[object Object]"
  end.

(** The letters [a] to [z], and [A] to [Z]. *)
Definition is_lower (c : ascii) : bool :=
  let n := nat_of_ascii c in (97 <=? n)%nat && (n <=? 122)%nat.

Definition is_upper (c : ascii) : bool :=
  let n := nat_of_ascii c in (65 <=? n)%nat && (n <=? 90)%nat.

Definition upper_ascii (c : ascii) : ascii :=
  if is_lower c then ascii_of_nat (nat_of_ascii c - 32) else c.

Definition lower_ascii (c : ascii) : ascii :=
  if is_upper c then ascii_of_nat (nat_of_ascii c + 32) else c.

(** No letter of [s] is lower-case. *)
Fixpoint no_lower (s : string) : bool :=
  match s with
  | EmptyString => true
  | String c s' => negb (is_lower c) && no_lower s'
  end.

Fixpoint toUpperCase (s : string) : string :=
  match s with
  | EmptyString => EmptyString
  | String c s' => String (upper_ascii c) (toUpperCase s')
  end.

Fixpoint toLowerCase (s : string) : string :=
  match s with
  | EmptyString => EmptyString
  | String c s' => String (lower_ascii c) (toLowerCase s')
  end.

(** Exceptions. *)
Inductive error : Type :=
| TypeError (msg : string).

Inductive result (A : Type) : Type :=
| Ok (a : A)
| Throw (e : error).
Arguments Ok {A} a.
Arguments Throw {A} e.

#[export] Instance result_ret : MRet result := fun A a => Ok a.
#[export] Instance result_bind : MBind result := fun A B f r =>
  match r with
  | Ok a => f a
  | Throw e => Throw e
  end.

(** [v.toUpperCase()]: only a string has the method. *)
Definition call_toUpperCase (v : value) : result string :=
  match v with
  | Str s => Ok (toUpperCase s)
  | Undefined => Throw (TypeError "Cannot read property 'toUpperCase' of undefined")
  | Null => Throw (TypeError "Cannot read property 'toUpperCase' of null")
  | _ => Throw (TypeError "toUpperCase is not a function")
  end.

(** *** arrify

    [val === null || val === undefined ? [] : Array.isArray(val) ? val : [val]] *)
Definition arrify (val : value) : value :=
  match val with
  | Undefined | Null => Arr []
  | Arr l => Arr l
  | _ => Arr [val]
  end.

(** Property values that count: [undefined] is treated as no value. *)
Definition defined (ov : option value) : option value :=
  match ov with
  | Some Undefined => None
  | _ => ov
  end.

(** The first of two optional values that is there. *)
Definition overlay (ov ow : option value) : option value :=
  match ov with
  | Some v => Some v
  | None => ow
  end.

(** *** extend (shallow)

    [for (name in options)]: the enumerable properties of a source.  An
    object gives its own properties, an array and a string their indices. *)
Definition own_enumerable (options : value) : list (string * value) :=
  match options with
  | Obj o => map_to_list o
  | Arr l => imap (fun i x => (string_of_nat i, x)) l
  | Str s =>
      imap (fun i c => (string_of_nat i, Str (String c ""))) (String.list_ascii_of_string s)
  | _ => []
  end.

(** The body of the loop: [if (typeof copy !== 'undefined') target[name] = copy].
    (The loop also skips a property whose value is the target itself; values
    here are trees, and no property of a source is the object it is copied
    to.) *)
Definition extend_prop (target : obj) (p : string * value) : obj :=
  match p.2 with
  | Undefined => target
  | copy => <[p.1 := copy]> target
  end.

(** One source; [null] and [undefined] sources are skipped, which
    [own_enumerable] covers. *)
Definition extend_one (target : obj) (options : value) : obj :=
  foldl extend_prop target (own_enumerable options).

(** [extend(target, source1, source2, ...)], sources applied left to right. *)
Definition extend (target : obj) (sources : list value) : obj :=
  foldl extend_one target sources.

(** *** string-format-obj

    [template.replace(re, function (match, key) {
       return key in args ? args[key] : match; })], where the global regular
    expression [re] matches an opening brace, the longest run of characters
    other than a closing brace (the captured [key]), and a closing brace. *)

(** The callback, with its result converted to a string.  The names in the
    templates of this file are not names that a plain object inherits, so
    [key in args] is whether [args] owns [key]. *)
Definition replacement (args : obj) (key : string) : string :=
  match args !! key with
  | Some v => ToString v
  | None => "{" +:+ key +:+ "}"
  end.

(** The scan.  [key = None]: outside a placeholder.  [key = Some k]: an
    opening brace was read and [k] are the characters since; the first
    closing brace ends the match, and a brace that is never closed leaves
    the rest of the template as it is. *)
Fixpoint format_scan (args : obj) (key : option string) (template : string) : string :=
  match template with
  | EmptyString =>
      match key with
      | None => ""
      | Some k => "{" +:+ k
      end
  | String c rest =>
      match key with
      | None =>
          if Ascii.eqb c "{" then format_scan args (Some "") rest
          else String c (format_scan args None rest)
      | Some k =>
          if Ascii.eqb c "}" then replacement args k +:+ format_scan args None rest
          else format_scan args (Some (k +:+ String c "")) rest
      end
  end.

Definition format_string (template : string) (args : obj) : string :=
  format_scan args None template.

(** [format(template, args)]: [template.replace] exists on strings only. *)
Definition format (template : value) (args : obj) : result string :=
  match template with
  | Str t => Ok (format_string t args)
  | Undefined => Throw (TypeError "Cannot read property 'replace' of undefined")
  | Null => Throw (TypeError "Cannot read property 'replace' of null")
  | _ => Throw (TypeError "template.replace is not a function")
  end.

End JS.

(** ** The record object and its methods *)
Module Codec.
Import JS.

(** A method body is a computation over the receiver [this]: it reads and
    writes the properties of [this] and either returns or throws. *)
Definition M (A : Type) : Type := obj -> result (A * obj).

#[export] Instance M_ret : MRet M := fun A a this => Ok (a, this).
#[export] Instance M_bind : MBind M := fun A B f c this =>
  match c this with
  | Ok (a, this') => f a this'
  | Throw e => Throw e
  end.

(** [this.k] *)
Definition this_get (k : string) : M value := fun this => Ok (get this k, this).
(** [this.k = v] *)
Definition this_set (k : string) (v : value) : M unit :=
  fun this => Ok (tt, <[k := v]> this).
(** [delete this.k] *)
Definition this_delete (k : string) : M unit :=
  fun this => Ok (tt, delete k this).
(** [extend(this, source)] *)
Definition this_extend (source : value) : M unit :=
  fun this => Ok (tt, extend this [source]).
(** A call that may throw and does not touch [this]. *)
Definition lift {A : Type} (r : result A) : M A :=
  fun this => match r with
              | Ok a => Ok (a, this)
              | Throw e => Throw e
              end.

(** The value a computation returns, and the receiver it leaves. *)
Definition eval {A : Type} (c : M A) (this : obj) : result A :=
  match c this with
  | Ok (a, _) => Ok a
  | Throw e => Throw e
  end.
Definition exec {A : Type} (c : M A) (this : obj) : result obj :=
  match c this with
  | Ok (_, this') => Ok this'
  | Throw e => Throw e
  end.

(** [Record.prototype.toJSON] *)
Definition toJSON : M obj :=
  metadata ← this_get "metadata";
  type ← this_get "type";
  upper ← lift (call_toUpperCase type);
  let recordObject := extend ∅ [metadata; Obj {[ "type" := Str upper ]}] in
  if truthy (get recordObject "data") then
    let recordObject :=
      <["rrdatas" := arrify (get recordObject "data")]> recordObject in
    let recordObject := delete "data" recordObject in
    mret recordObject
  else
    mret recordObject.

(** The last statement of the constructor:
    [if (this.rrdatas) { this.data = this.rrdatas; delete this.rrdatas; }] *)
Definition rrdatas_to_data : M unit :=
  rrdatas ← this_get "rrdatas";
  if truthy rrdatas then
    this_set "data" rrdatas;;
    this_delete "rrdatas"
  else
    mret tt.

(** The constructor body, [function Record(zone, type, metadata)]. *)
Definition Record_ (zone : value) (type : string) (metadata : value) : M unit :=
  this_set "zone_" zone;;
  this_set "type" (Str type);;
  this_set "metadata" metadata;;
  json ← toJSON;
  this_extend (Obj json);;
  rrdatas_to_data.

(** The receiver after the three assignments that open the constructor. *)
Definition assigned (zone : value) (type : string) (metadata : value) : obj :=
  <["metadata" := metadata]> (<["type" := Str type]> (<["zone_" := zone]> ∅)).

(** [new Record(zone, type, metadata)]: the constructor run on a fresh object. *)
Definition new_Record (zone : value) (type : string) (metadata : value) : result obj :=
  exec (Record_ zone type metadata) ∅.

(** The table of [Record.fromZoneRecord_]. *)
Definition typeToZoneFormat : gmap string string :=
  list_to_map
    [ ("a", "{ip}");
      ("aaaa", "{ip}");
      ("cname", "{alias}");
      ("mx", "{preference} {host}");
      ("ns", "{host}");
      ("soa", "{mname} {rname} {serial} {retry} {refresh} {expire} {minimum}");
      ("spf", "{data}");
      ("srv", "{priority} {weight} {port} {target}");
      ("txt", "{txt}") ].

(** [typeToZoneFormat[k]]: a type that is not in the table reads as
    [undefined], but for the two lower-case names the table inherits,
    [constructor] and [__proto__], which read as objects that have no
    [replace] method. *)
Definition typeToZoneFormat_get (k : string) : value :=
  match typeToZoneFormat !! k with
  | Some template => Str template
  | None =>
      if bool_decide (k = "constructor" ∨ k = "__proto__") then Obj ∅
      else Undefined
  end.

(** [Record.fromZoneRecord_] *)
Definition fromZoneRecord_ (zone : value) (type : string) (bindData : obj) : result obj :=
  data ← format (typeToZoneFormat_get (toLowerCase type)) bindData;
  let metadata : obj :=
    {[ "data" := Str data;
       "name" := get bindData "name";
       "ttl" := get bindData "ttl" ]} in
  new_Record zone type (Obj metadata).

(** The callback of [toString]'s [map]: [json.rrdata = data], then the
    line for it.  The assignment stays on [json] for the next entry. *)
Definition toString_line (json : obj) (data : value) : result (string * obj) :=
  let json := <["rrdata" := data]> json in
  line ← format (Str "{name} {ttl} IN {type} {rrdata}") json;
  mret (line, json).

Fixpoint toString_map (json : obj) (rrdatas : list value) : result (list string) :=
  match rrdatas with
  | [] => mret []
  | data :: rest =>
      '(line, json) ← toString_line json data;
      lines ← toString_map json rest;
      mret (line :: lines)
  end.

Definition newline : string := String "010" "".

(** [Record.prototype.toString] *)
Definition toString : M string :=
  json ← toJSON;
  let rrdatas := get json "rrdatas" in
  match (if truthy rrdatas then rrdatas else Arr [Obj ∅]) with
  | Arr l =>
      lines ← lift (toString_map json l);
      mret (join newline lines)
  | _ => lift (Throw (TypeError "map is not a function"))
  end.

End Codec.

(** ** The zone-file formats of the specification *)
Module Spec.
Import JS.

(** The format table as the specification gives it.

    For each type, the names of its fields in the order of the table; a
    template is these names, each in braces, separated by single spaces. *)
Definition zone_fields : gmap string (list string) :=
  list_to_map
    [ ("a", ["ip"]);
      ("aaaa", ["ip"]);
      ("cname", ["alias"]);
      ("mx", ["preference"; "host"]);
      ("ns", ["host"]);
      ("soa", ["mname"; "rname"; "serial"; "retry"; "refresh"; "expire"; "minimum"]);
      ("spf", ["data"]);
      ("srv", ["priority"; "weight"; "port"; "target"]);
      ("txt", ["txt"]) ].

Definition placeholder (field : string) : string := "{" +:+ field +:+ "}".

Definition template_of (fields : list string) : string :=
  join " " (placeholder <$> fields).

(** The line of a zone file: [{name} {ttl} IN {type} {rrdata}]. *)
Definition zone_line (name ttl type rrdata : string) : string :=
  name +:+ " " +:+ ttl +:+ " IN " +:+ type +:+ " " +:+ rrdata.

(** A name without a closing brace. *)
Fixpoint no_close (s : string) : bool :=
  match s with
  | EmptyString => true
  | String c s' => negb (Ascii.eqb c "}") && no_close s'
  end.

End Spec.

(** ** Concrete inputs used below *)
Module Examples.
Import JS.

Definition zone : value := Obj {[ "name" := Str "my-awesome-zone" ]}.

(** [{name: 'example.com.', ttl: 300, data: ['1.2.3.4', '5.6.7.8']}] *)
Definition two_addresses : obj :=
  {[ "name" := Str "example.com."; "ttl" := Num 300;
     "data" := Arr [Str "1.2.3.4"; Str "5.6.7.8"] ]}.

(** [{name: 'example.com.', ttl: 300, data: ''}] *)
Definition empty_string_data : obj :=
  {[ "name" := Str "example.com."; "ttl" := Num 300; "data" := Str "" ]}.


(** [{name: 'example.com.', ttl: 300}] *)
Definition no_data : obj :=
  {[ "name" := Str "example.com."; "ttl" := Num 300 ]}.


(** The SOA record of the specification. *)
Definition soa_fields : obj :=
  {[ "name" := Str "example.com."; "ttl" := Num 21600;
     "mname" := Str "ns1.example.com."; "rname" := Str "admin.example.com.";
     "serial" := Num 1; "retry" := Num 7200; "refresh" := Num 3600;
     "expire" := Num 1209600; "minimum" := Num 86400 ]}.

(** An MX record without its [preference]. *)
Definition mx_without_preference : obj :=
  {[ "name" := Str "example.com."; "ttl" := Num 300;
     "host" := Str "mail.example.com." ]}.

(** A TXT record whose text is empty. *)
Definition empty_txt : obj :=
  {[ "name" := Str "example.com."; "ttl" := Num 300; "txt" := Str "" ]}.

(** The object a [new] expression evaluates to. *)
Definition built (r : result obj) : obj :=
  match r with
  | Ok o => o
  | Throw _ => ∅
  end.

(** The records [zone.record('a', metadata)] for three of the above. *)
Definition a_record : obj :=
  built (Codec.new_Record zone "a" (Obj two_addresses)).
Definition empty_string_record : obj :=
  built (Codec.new_Record zone "a" (Obj empty_string_data)).

End Examples.

(** ** The change object of [src/change.js] *)
Module Change.
Import JS Codec.

(** [v.k] for a name [k] that strings, numbers, booleans and arrays do not
    have, as [id] and [metadata]: an object gives its property, [null] and
    [undefined] throw, every other value gives [undefined]. *)
Definition property (v : value) (k : string) : result value :=
  match v with
  | Obj o => Ok (get o k)
  | Undefined =>
      Throw (TypeError ("Cannot read property '" +:+ k +:+ "' of undefined"))
  | Null => Throw (TypeError ("Cannot read property '" +:+ k +:+ "' of null"))
  | _ => Ok Undefined
  end.

(** A call [callback(err, change, apiResponse)]. *)
Record callback_call : Type :=
  Call { call_err : value; call_change : value; call_apiResponse : value }.

(** [self], the receiver as it is now. *)
Definition self : M value := fun this => Ok (Obj this, this).

(** The function that [create] hands to [parent.createChange], run on the
    change it was made for: what it calls [callback] with. *)
Definition create_done (err change apiResponse : value) : M callback_call :=
  if truthy err then
    mret (Call err Null apiResponse)
  else
    id ← lift (property change "id");
    this_set "id" id;;
    metadata ← lift (property change "metadata");
    this_set "metadata" metadata;;
    me ← self;
    mret (Call Null me apiResponse).

Section create.
(** [this.parent.createChange], which answers a configuration by calling the
    function it is given with an error, a change and the API response. *)
Variable createChange : value → value * value * value.

(** [Change.prototype.create] *)
Definition create (config : value) : M callback_call :=
  let '(err, change, apiResponse) := createChange config in
  create_done err change apiResponse.
End create.

End Change.

(** ** More concrete inputs *)
Module MoreExamples.
Import JS.

(** The change [zone.change('change-id')] before it is created. *)
Definition new_change : obj :=
  {[ "id" := Str "change-id"; "baseUrl" := Str "/changes";
     "parent" := Examples.zone ]}.

(** What the API made of it. *)
Definition created_change : obj :=
  {[ "id" := Str "7"; "metadata" := Obj {[ "status" := Str "pending" ]} ]}.

Definition api_response : value := Obj {[ "kind" := Str "dns#change" ]}.
Definition api_error : value := Obj {[ "message" := Str "Error." ]}.

(** A parent whose [createChange] succeeds, and one whose fails. *)
Definition succeeding (config : value) : value * value * value :=
  (Null, Obj created_change, api_response).
Definition failing (config : value) : value * value * value :=
  (api_error, Null, api_response).
Definition answering_nothing (config : value) : value * value * value :=
  (Null, Undefined, api_response).

(** [zone.record('mx', ...)] as a wire object with a stray [kind]. *)
Definition wire_mx : obj :=
  {[ "kind" := Str "dns#resourceRecordSet"; "name" := Str "example.com.";
     "type" := Str "MX"; "ttl" := Num 3600;
     "rrdatas" := Arr [Str "10 mail.example.com."; Str "20 mail2.example.com."] ]}.

(** An MX record set as dns-zonefile parses it. *)
Definition mx_fields : obj :=
  {[ "name" := Str "example.com."; "ttl" := Num 3600;
     "preference" := Num 10; "host" := Str "mail.example.com." ]}.


End MoreExamples.

Import JS Codec Spec.

(** ** Facts about the library functions *)
Section extend_facts.
Implicit Types (target o : obj) (k : string) (v : value).

Lemma defined_idemp ov : defined (defined ov) = defined ov.
Proof. by destruct ov as [[]|]. Qed.

Lemma lookup_extend_prop target p k :
  extend_prop target p !! k =
    if decide (p.1 = k) then overlay (defined (Some p.2)) (target !! k)
    else target !! k.
Proof.
  destruct p as [k' v]; unfold extend_prop; simpl.
  case_decide; subst; destruct v; simpl;
    by rewrite ?lookup_insert_eq, ?lookup_insert_ne.
Qed.

(** Copying a list of properties with distinct names. *)
Lemma lookup_foldl_extend_prop (l : list (string * value)) target k :
  NoDup l.*1 →
  foldl extend_prop target l !! k =
    overlay (defined ((list_to_map l : obj) !! k)) (target !! k).
Proof.
  revert target; induction l as [|[k' v] l IH]; intros target Hnd.
  { by rewrite list_to_map_nil, lookup_empty. }
  rewrite fmap_cons in Hnd. apply NoDup_cons in Hnd as [Hk' Hnd].
  rewrite list_to_map_cons; simpl.
  rewrite IH, lookup_extend_prop by done; simpl.
  destruct (decide (k' = k)) as [->|Hne].
  - rewrite lookup_insert_eq.
    by rewrite (not_elem_of_list_to_map_1 l k).
  - by rewrite lookup_insert_ne.
Qed.

(** [extend] from an object source: a defined property of the source
    wins, every other property of the target stays. *)
Lemma lookup_extend_one_Obj target o k :
  extend_one target (Obj o) !! k = overlay (defined (o !! k)) (target !! k).
Proof.
  unfold extend_one; simpl.
  rewrite lookup_foldl_extend_prop by apply NoDup_fst_map_to_list.
  by rewrite list_to_map_to_list.
Qed.

(** A [null] or [undefined] source is skipped. *)
Lemma extend_one_nullish target options :
  options = Undefined ∨ options = Null → extend_one target options = target.
Proof. by intros [-> | ->]. Qed.
End extend_facts.

Section string_facts.
Implicit Types (s : string) (c : ascii).

Lemma append_nil_l s : "" +:+ s = s.
Proof. done. Qed.

Lemma append_cons c s1 s2 : String c s1 +:+ s2 = String c (s1 +:+ s2).
Proof. done. Qed.

Lemma append_nil_r s : s +:+ "" = s.
Proof. induction s as [|c s IH]; [done|]. by rewrite append_cons, IH. Qed.

Lemma append_assoc s1 s2 s3 : (s1 +:+ s2) +:+ s3 = s1 +:+ (s2 +:+ s3).
Proof. induction s1 as [|c s1 IH]; [done|]. by rewrite !append_cons, IH. Qed.

Lemma append_nonempty_l s1 s2 : s1 ≠ "" → s1 +:+ s2 ≠ "".
Proof. by destruct s1. Qed.

Lemma upper_ascii_idemp c : upper_ascii (upper_ascii c) = upper_ascii c.
Proof. by destruct c as [[] [] [] [] [] [] [] []]. Qed.

Lemma toUpperCase_idemp s : toUpperCase (toUpperCase s) = toUpperCase s.
Proof. induction s; simpl; [done|]. by rewrite upper_ascii_idemp, IHs. Qed.

Lemma is_lower_upper_ascii c : is_lower (upper_ascii c) = false.
Proof. by destruct c as [[] [] [] [] [] [] [] []]. Qed.

Lemma no_lower_toUpperCase s : no_lower (toUpperCase s) = true.
Proof. induction s; simpl; [done|]. by rewrite is_lower_upper_ascii, IHs. Qed.

Lemma join_cons_cons sep s1 s2 (l : list string) :
  join sep (s1 :: s2 :: l) = s1 +:+ sep +:+ join sep (s2 :: l).
Proof. done. Qed.

Lemma join_nonempty sep (l : list string) x : x ∈ l → x ≠ "" → join sep l ≠ "".
Proof.
  intros Hx Hne. induction l as [|y [|z l] IH].
  - by apply elem_of_nil in Hx.
  - apply list_elem_of_singleton in Hx as <-. done.
  - rewrite join_cons_cons. destruct y as [|c y]; [|done].
    rewrite append_nil_l. apply elem_of_cons in Hx as [->|Hx]; [done|].
    intros Hjoin. apply IH; [done|].
    destruct sep; [done|discriminate].
Qed.
End string_facts.

Section format_facts.
Context (args : obj).

(** Inside a placeholder, the scan collects the key up to the closing
    brace and replaces it. *)
Lemma format_scan_key k acc rest :
  no_close k = true →
  format_scan args (Some acc) (k +:+ String "}" rest) =
    replacement args (acc +:+ k) +:+ format_scan args None rest.
Proof.
  revert acc; induction k as [|c k IH]; intros acc Hk.
  { by rewrite append_nil_r. }
  simpl in Hk. apply andb_true_iff in Hk as [Hc Hk].
  apply negb_true_iff in Hc. rewrite append_cons; simpl.
  rewrite Hc, IH by done.
  by rewrite append_assoc.
Qed.

Lemma format_scan_placeholder f rest :
  no_close f = true →
  format_scan args None (placeholder f +:+ rest) =
    replacement args f +:+ format_scan args None rest.
Proof.
  intros Hf. unfold placeholder.
  rewrite !append_cons, append_nil_l, append_assoc, append_cons, append_nil_l.
  simpl. by rewrite format_scan_key.
Qed.

(** A template made of placeholders separated by single spaces formats to
    the replacements separated by single spaces, in the same order. *)
Lemma format_template_of fields :
  forallb no_close fields = true →
  format_string (template_of fields) args = join " " (replacement args <$> fields).
Proof.
  unfold format_string, template_of.
  induction fields as [|f [|f' fields] IH]; intros Hfs; [done|..].
  - simpl in Hfs. apply andb_true_iff in Hfs as [Hf _].
    change (format_scan args None (placeholder f) = replacement args f).
    rewrite <-(append_nil_r (placeholder f)).
    by rewrite format_scan_placeholder, append_nil_r.
  - rewrite !fmap_cons, !join_cons_cons. rewrite <-!fmap_cons.
    apply andb_true_iff in Hfs as [Hf Hfs].
    rewrite format_scan_placeholder by done.
    rewrite append_cons, append_nil_l.
    change (format_scan args None (String " " ?r))
      with (String " " (format_scan args None r)).
    by rewrite IH.
Qed.

Lemma replacement_Some f v : args !! f = Some v → replacement args f = ToString v.
Proof. unfold replacement. by intros ->. Qed.

Lemma replacement_None f : args !! f = None → replacement args f = placeholder f.
Proof. unfold replacement. by intros ->. Qed.

Lemma replacement_nonempty_None f : args !! f = None → replacement args f ≠ "".
Proof. intros ->%replacement_None. done. Qed.
End format_facts.

(** The table of the source is the table of the specification. *)
Lemma typeToZoneFormat_template_of :
  typeToZoneFormat = template_of <$> zone_fields.
Proof. by vm_compute. Qed.

Lemma zone_fields_no_close k fields :
  zone_fields !! k = Some fields → forallb no_close fields = true.
Proof.
  intros H%elem_of_list_to_map_2.
  repeat (apply elem_of_cons in H as [[= -> ->]|H]; [done|]).
  by apply elem_of_nil in H.
Qed.

Section result_facts.
Context {A B : Type}.

Lemma Ok_inj (a a' : A) : Ok a = Ok a' → a = a'.
Proof. by intros [=]. Qed.

Lemma Ok_pair_inj (a a' : A) (b b' : B) : Ok (a, b) = Ok (a', b') → a = a' ∧ b = b'.
Proof. by intros [=]. Qed.
End result_facts.

(** Settle the comparisons of property names in the goal, or in [H]. *)
Ltac key_solver :=
  solve [reflexivity | assumption | let E := fresh in intros E; discriminate E].
Ltac decide_keys :=
  repeat first [rewrite decide_True by key_solver
               | rewrite decide_False by key_solver].

(** ** Facts about [toJSON] *)
Section toJSON_facts.
Implicit Types (this m json : obj) (t u k : string).

(** [toJSON] reads [this] and leaves it as it is. *)
Lemma toJSON_run this t :
  get this "type" = Str t →
  toJSON this =
    Ok (let recordObject :=
          extend ∅ [get this "metadata"; Obj {[ "type" := Str (toUpperCase t) ]}] in
        if truthy (get recordObject "data")
        then delete "data"
               (<["rrdatas" := arrify (get recordObject "data")]> recordObject)
        else recordObject,
        this).
Proof.
  intros Ht. unfold toJSON, mbind, M_bind, this_get, lift, mret, M_ret.
  rewrite Ht. cbn [call_toUpperCase]. by case_match.
Qed.

Lemma toJSON_this this json this' : toJSON this = Ok (json, this') → this' = this.
Proof.
  unfold toJSON, mbind, M_bind, this_get, lift, mret, M_ret.
  destruct (call_toUpperCase _); [|done].
  by case_match; intros [_ <-]%Ok_pair_inj.
Qed.

(** The merged object [extend({}, metadata, {type: u})]. *)
Lemma lookup_recordObject m u k :
  extend ∅ [Obj m; Obj {[ "type" := Str u ]}] !! k =
    if decide (k = "type") then Some (Str u) else defined (m !! k).
Proof.
  unfold extend; cbn [foldl]. rewrite !lookup_extend_one_Obj, lookup_empty.
  case_decide as Hk.
  - subst. by rewrite lookup_singleton_eq.
  - rewrite lookup_singleton_ne by done. cbn [defined overlay]. by destruct (defined _).
Qed.

Lemma lookup_recordObject_type metadata u :
  extend ∅ [metadata; Obj {[ "type" := Str u ]}] !! "type" = Some (Str u).
Proof.
  unfold extend; cbn [foldl]. by rewrite lookup_extend_one_Obj, lookup_singleton_eq.
Qed.

Lemma get_defined m k : default Undefined (defined (m !! k)) = get m k.
Proof. unfold get. by destruct (m !! k) as [[]|]. Qed.

Lemma get_recordObject_data m u :
  get (extend ∅ [Obj m; Obj {[ "type" := Str u ]}]) "data" = get m "data".
Proof.
  unfold get at 1. rewrite lookup_recordObject.
  rewrite decide_False by done. apply get_defined.
Qed.

(** The output of [toJSON], property by property. *)
Lemma toJSON_lookup this t m :
  get this "type" = Str t →
  get this "metadata" = Obj m →
  ∃ json, toJSON this = Ok (json, this) ∧
    ∀ k, json !! k =
      if decide (k = "type") then Some (Str (toUpperCase t))
      else if truthy (get m "data") then
        if decide (k = "rrdatas") then Some (arrify (get m "data"))
        else if decide (k = "data") then None
        else defined (m !! k)
      else defined (m !! k).
Proof.
  intros Ht Hm. eexists; split; [by apply toJSON_run|].
  intros k. rewrite Hm. cbv zeta. rewrite get_recordObject_data.
  destruct (truthy (get m "data")).
  - destruct (decide (k = "data")) as [->|Hd].
    { by rewrite lookup_delete_eq. }
    rewrite lookup_delete_ne by done.
    destruct (decide (k = "rrdatas")) as [->|Hr].
    { by rewrite lookup_insert_eq. }
    rewrite lookup_insert_ne by done. apply lookup_recordObject.
  - apply lookup_recordObject.
Qed.

Lemma eval_toJSON this json : toJSON this = Ok (json, this) → eval toJSON this = Ok json.
Proof. unfold eval. by intros ->. Qed.

(** Whatever the metadata, the output has the upper-case [type]. *)
Lemma toJSON_type this (t : string) :
  get this "type" = Str t →
  ∃ json, toJSON this = Ok (json, this) ∧
    json !! "type" = Some (Str (toUpperCase t)).
Proof.
  intros Ht. eexists; split; [by apply toJSON_run|]. cbv zeta.
  case_match;
    rewrite ?lookup_delete_ne, ?lookup_insert_ne by done;
    apply lookup_recordObject_type.
Qed.
End toJSON_facts.

(** ** Facts about the constructor *)
Section constructor_facts.
Context (zone : value) (type : string) (metadata : value).
Implicit Types (m json : obj) (k : string).

Abbreviation base := (assigned zone type metadata).

Lemma get_base_type : get base "type" = Str type.
Proof. unfold get, assigned. by rewrite lookup_insert_ne, lookup_insert_eq. Qed.

Lemma get_base_metadata : get base "metadata" = metadata.
Proof. unfold get, assigned. by rewrite lookup_insert_eq. Qed.

Lemma lookup_base_other k :
  k ≠ "metadata" → k ≠ "type" → k ≠ "zone_" → base !! k = None.
Proof. intros. unfold assigned. by rewrite !lookup_insert_ne, lookup_empty. Qed.

Lemma exec_rrdatas_to_data (this : obj) :
  exec rrdatas_to_data this =
    Ok (if truthy (get this "rrdatas")
        then delete "rrdatas" (<["data" := get this "rrdatas"]> this)
        else this).
Proof.
  unfold exec, rrdatas_to_data, mbind, M_bind, this_get, this_set, this_delete,
    mret, M_ret.
  by destruct (truthy _).
Qed.

(** The constructor never throws: [toJSON] finds the string [type] that
    was just stored. *)
Lemma new_Record_run :
  ∃ json, toJSON base = Ok (json, base) ∧
    new_Record zone type metadata =
      Ok (let this := extend base [Obj json] in
          if truthy (get this "rrdatas")
          then delete "rrdatas" (<["data" := get this "rrdatas"]> this)
          else this).
Proof.
  eexists; split; [apply toJSON_run, get_base_type|].
  rewrite <-exec_rrdatas_to_data.
  unfold new_Record, exec at 1, Record_, mbind, M_bind, this_set, this_extend.
  fold (assigned zone type metadata). by rewrite (toJSON_run _ _ get_base_type).
Qed.

Lemma lookup_extend_this (this : obj) json k :
  extend this [Obj json] !! k = overlay (defined (json !! k)) (this !! k).
Proof. unfold extend; cbn [foldl]. apply lookup_extend_one_Obj. Qed.
End constructor_facts.

(** The constructor on object metadata: the [toJSON] output it extends the
    record with, and the record it leaves, by the [rrdatas] of that output. *)
Lemma new_Record_Obj (zone : value) (type : string) (m : obj) :
  ∃ json,
    (∀ k, json !! k =
       if decide (k = "type") then Some (Str (toUpperCase type))
       else if truthy (get m "data") then
         if decide (k = "rrdatas") then Some (arrify (get m "data"))
         else if decide (k = "data") then None
         else defined (m !! k)
       else defined (m !! k)) ∧
    ∀ rrdatas, default Undefined (defined (json !! "rrdatas")) = rrdatas →
      new_Record zone type (Obj m) =
        Ok (let this := extend (assigned zone type (Obj m)) [Obj json] in
            if truthy rrdatas
            then delete "rrdatas" (<["data" := rrdatas]> this)
            else this).
Proof.
  destruct (new_Record_run zone type (Obj m)) as (json & Hrun & Hnew).
  destruct (toJSON_lookup _ type m (get_base_type zone type (Obj m))
              (get_base_metadata zone type (Obj m)))
    as (json' & Hrun' & Hjson).
  rewrite Hrun in Hrun'. apply Ok_pair_inj in Hrun' as [<- _].
  exists json. split; [exact Hjson|].
  intros rrdatas <-. rewrite Hnew. cbv zeta.
  assert (get (extend (assigned zone type (Obj m)) [Obj json]) "rrdatas" =
          default Undefined (defined (json !! "rrdatas"))) as ->; [|done].
  unfold get. rewrite lookup_extend_this, lookup_base_other by done.
  by destruct (defined _).
Qed.


(** ** The properties of the codec *)

(** C1 (as the code has it).  For a record with a string [type] and an object
    [metadata], [toJSON] returns a mapping that holds every metadata field
    whose value is not [undefined], with [type] set to the upper-case form
    of the record's type.  When the metadata's [data] is truthy it is
    removed and [rrdatas] holds it coerced to a sequence: a non-empty scalar
    string becomes a one-element sequence, a sequence passes through
    unchanged.  When [data] is absent or falsy no [rrdatas] is made from it:
    the output has [rrdatas] only if the metadata itself carries one, and a
    falsy [data] stays where it is. *)
Theorem toJSON_spec (this : obj) (t : string) (m : obj) :
  get this "type" = Str t →
  get this "metadata" = Obj m →
  ∃ json, eval toJSON this = Ok json ∧
    json !! "type" = Some (Str (toUpperCase t)) ∧
    (∀ k, k ≠ "type" → k ≠ "data" → k ≠ "rrdatas" → json !! k = defined (m !! k)) ∧
    (truthy (get m "data") = true →
       json !! "rrdatas" = Some (arrify (get m "data")) ∧ json !! "data" = None) ∧
    (∀ s, get m "data" = Str s → s ≠ "" → json !! "rrdatas" = Some (Arr [Str s])) ∧
    (∀ l, get m "data" = Arr l → json !! "rrdatas" = Some (Arr l)) ∧
    (truthy (get m "data") = false →
       json !! "rrdatas" = defined (m !! "rrdatas") ∧
       json !! "data" = defined (m !! "data")) ∧
    (truthy (get m "data") = false → m !! "rrdatas" = None → json !! "rrdatas" = None).
Proof.
  intros Ht Hm. destruct (toJSON_lookup this t m Ht Hm) as (json & Hrun & Hjson).
  exists json. split; [by apply eval_toJSON|].
  assert (Htruthy : truthy (get m "data") = true →
            json !! "rrdatas" = Some (arrify (get m "data")) ∧ json !! "data" = None).
  { intros Hd. rewrite !Hjson, Hd. by decide_keys. }
  assert (Hfalsy : truthy (get m "data") = false →
            json !! "rrdatas" = defined (m !! "rrdatas") ∧
            json !! "data" = defined (m !! "data")).
  { intros Hd. rewrite !Hjson, Hd. by decide_keys. }
  repeat split.
  - rewrite Hjson. by decide_keys.
  - intros k ? ? ?. rewrite Hjson. decide_keys. by case_match.
  - by apply Htruthy.
  - by apply Htruthy.
  - intros s Hs Hne. destruct Htruthy as [-> _]; rewrite Hs; [|done].
    simpl. by destruct s.
  - intros l Hl. destruct Htruthy as [-> _]; by rewrite Hl.
  - by apply Hfalsy.
  - by apply Hfalsy.
  - intros Hd Hno. destruct (Hfalsy Hd) as [-> _]. by rewrite Hno.
Qed.

Lemma toJSON_spec_witness :
  ∃ json, eval toJSON Examples.a_record = Ok json ∧
    json !! "type" = Some (Str "A") ∧
    json !! "rrdatas" = Some (Arr [Str "1.2.3.4"; Str "5.6.7.8"]).
Proof.
  destruct (toJSON_spec Examples.a_record "A" Examples.two_addresses)
    as (json & Hrun & Htype & _ & _ & _ & Harr & _);
    [by vm_compute | by vm_compute |].
  exists json. split; [exact Hrun|]. split; [exact Htype|].
  apply Harr. by vm_compute.
Defined.

(** C1 as stated fails: the record built from
    [{name: 'example.com.', ttl: 300, data: ''}] has a [data] field in its
    metadata, yet [toJSON] neither renames it nor makes an [rrdatas]. *)
Lemma toJSON_empty_string_data_not_renamed :
  ∃ r json,
    new_Record Examples.zone "a" (Obj Examples.empty_string_data) = Ok r ∧
    get r "metadata" = Obj Examples.empty_string_data ∧
    Examples.empty_string_data !! "data" = Some (Str "") ∧
    eval toJSON r = Ok json ∧
    json !! "data" = Some (Str "") ∧
    json !! "rrdatas" = None.
Proof.
  exists Examples.empty_string_record,
    (Examples.built (eval toJSON Examples.empty_string_record)).
  split_and!; by vm_compute.
Qed.

(** C6.  Round trip.  For a record whose [data] is a sequence of strings,
    the [rrdatas] of its [toJSON] output is that sequence, and renaming
    [rrdatas] back to [data], as the constructor does, gives back the
    original [data] element for element; so the record built from such
    metadata carries the original sequence as its [data]. *)
Theorem toJSON_rrdatas_round_trip (this : obj) (t : string) (m : obj) (l : list string) :
  get this "type" = Str t →
  get this "metadata" = Obj m →
  m !! "data" = Some (Arr (Str <$> l)) →
  ∃ json back,
    eval toJSON this = Ok json ∧
    json !! "rrdatas" = Some (Arr (Str <$> l)) ∧
    exec rrdatas_to_data json = Ok back ∧
    back !! "data" = m !! "data" ∧
    back !! "rrdatas" = None ∧
    ∀ zone type, ∃ r,
      new_Record zone type (Obj m) = Ok r ∧
      r !! "data" = Some (Arr (Str <$> l)) ∧
      r !! "rrdatas" = None.
Proof.
  intros Ht Hm Hdata.
  assert (Hget : get m "data" = Arr (Str <$> l)) by (unfold get; by rewrite Hdata).
  destruct (toJSON_lookup this t m Ht Hm) as (json & Hrun & Hjson).
  assert (Hrr : json !! "rrdatas" = Some (Arr (Str <$> l))).
  { rewrite Hjson, Hget. by decide_keys. }
  exists json, (delete "rrdatas" (<["data" := Arr (Str <$> l)]> json)).
  split; [by apply eval_toJSON|]. split; [done|].
  split.
  { rewrite exec_rrdatas_to_data. unfold get. by rewrite Hrr. }
  rewrite lookup_delete_eq, lookup_delete_ne, lookup_insert_eq by done.
  do 2 (split; [done|]).
  intros zone type.
  destruct (new_Record_Obj zone type m) as (json' & Hjson' & Hnew).
  rewrite (Hnew (Arr (Str <$> l))).
  - eexists; split; [done|]. cbn [truthy].
    by rewrite lookup_delete_eq, lookup_delete_ne, lookup_insert_eq.
  - rewrite Hjson', Hget. by decide_keys.
Qed.

Lemma toJSON_rrdatas_round_trip_witness :
  ∃ json back,
    eval toJSON Examples.a_record = Ok json ∧
    json !! "rrdatas" = Some (Arr [Str "1.2.3.4"; Str "5.6.7.8"]) ∧
    exec rrdatas_to_data json = Ok back ∧
    back !! "data" = Some (Arr [Str "1.2.3.4"; Str "5.6.7.8"]).
Proof.
  destruct (toJSON_rrdatas_round_trip Examples.a_record "A" Examples.two_addresses
              ["1.2.3.4"; "5.6.7.8"])
    as (json & back & Hrun & Hrr & Hback & Hdata & _);
    [by vm_compute | by vm_compute | by vm_compute |].
  exists json, back. repeat split; [exact Hrun | exact Hrr | exact Hback |].
  rewrite Hdata. by vm_compute.
Defined.

(** The same for the record as built, when the metadata has no field that
    is itself called [metadata]: the constructor copies every field of the
    metadata onto the record, and a field of that name would replace the
    stored metadata. *)
Lemma toJSON_new_Record_rrdatas zone type (m : obj) (l : list value) :
  m !! "metadata" = None →
  m !! "data" = Some (Arr l) →
  ∃ r json,
    new_Record zone type (Obj m) = Ok r ∧
    r !! "data" = Some (Arr l) ∧
    eval toJSON r = Ok json ∧
    json !! "rrdatas" = Some (Arr l).
Proof.
  intros Hmeta Hdata.
  assert (Hget : get m "data" = Arr l) by (unfold get; by rewrite Hdata).
  destruct (new_Record_Obj zone type m) as (json & Hjson & Hnew).
  assert (Hrr : default Undefined (defined (json !! "rrdatas")) = Arr l).
  { rewrite Hjson, Hget. by decide_keys. }
  assert (Hr := Hnew _ Hrr). clear Hnew. cbv zeta in Hr. cbn [truthy] in Hr.
  set (r := delete "rrdatas" (<["data" := Arr l]> _)) in Hr.
  assert (Hother : ∀ k, k ≠ "data" → k ≠ "rrdatas" →
            r !! k = overlay (defined (json !! k)) (assigned zone type (Obj m) !! k)).
  { intros k ? ?. unfold r.
    by rewrite lookup_delete_ne, lookup_insert_ne, lookup_extend_this. }
  destruct (toJSON_lookup r (toUpperCase type) m) as (json2 & Hrun2 & Hjson2).
  - unfold get. rewrite Hother, Hjson by done. by decide_keys.
  - unfold get. rewrite Hother, Hjson, Hget by done. decide_keys.
    cbn [truthy]. rewrite Hmeta.
    unfold assigned. by rewrite lookup_insert_eq.
  - exists r, json2. split; [exact Hr|].
    split; [unfold r; by rewrite lookup_delete_ne, lookup_insert_eq|].
    split; [by apply eval_toJSON|].
    rewrite Hjson2, Hget. by decide_keys.
Qed.

(** C7.  [toJSON] is pure: on a record whose [type] is a string it returns
    and leaves the record as it was, every property of it, and a second call
    on the same record returns an equal mapping. *)
Theorem toJSON_pure (this : obj) (t : string) :
  get this "type" = Str t →
  ∃ json,
    toJSON this = Ok (json, this) ∧
    (json1 ← toJSON; json2 ← toJSON; mret (json1, json2)) this = Ok ((json, json), this).
Proof.
  intros Ht. eexists. split; [by apply toJSON_run|].
  unfold mbind at 1, M_bind at 1. rewrite (toJSON_run _ _ Ht).
  unfold mbind, M_bind. by rewrite (toJSON_run _ _ Ht).
Qed.

Lemma toJSON_pure_witness :
  ∃ json, toJSON Examples.a_record = Ok (json, Examples.a_record).
Proof.
  destruct (toJSON_pure Examples.a_record "A") as (json & Hrun & _);
    [by vm_compute|].
  by exists json.
Defined.



(** C9.  The constructor extends the record with its own [toJSON] output,
    which overwrites the stored [type]: whatever the casing the caller
    gave, the [type] of the record as built is its upper-case form, and the
    casing given is not kept. *)
Theorem new_Record_type_uppercase (zone : value) (type : string) (metadata : value) :
  ∃ r, new_Record zone type metadata = Ok r ∧
    r !! "type" = Some (Str (toUpperCase type)) ∧
    no_lower (toUpperCase type) = true ∧
    toUpperCase (toUpperCase type) = toUpperCase type ∧
    (toUpperCase type ≠ type → r !! "type" ≠ Some (Str type)).
Proof.
  destruct (new_Record_run zone type metadata) as (json & Hrun & ->).
  eexists; split; [done|]. cbv zeta.
  assert (Htype : json !! "type" = Some (Str (toUpperCase type))).
  { destruct (toJSON_type _ _ (get_base_type zone type metadata))
      as (json' & Hrun' & Htype).
    rewrite Hrun in Hrun'. by apply Ok_pair_inj in Hrun' as [<- _]. }
  match goal with |- ?r !! _ = _ ∧ _ =>
    assert (Hr : r !! "type" = Some (Str (toUpperCase type))) end.
  { case_match;
      rewrite ?lookup_delete_ne, ?lookup_insert_ne by done;
      by rewrite lookup_extend_this, Htype. }
  split; [exact Hr|]. split; [apply no_lower_toUpperCase|].
  split; [apply toUpperCase_idemp|].
  intros Hne. rewrite Hr. congruence.
Qed.

Lemma new_Record_type_uppercase_witness :
  ∃ r, new_Record Examples.zone "a" (Obj Examples.two_addresses) = Ok r ∧
    r !! "type" = Some (Str "A").
Proof.
  destruct (new_Record_type_uppercase Examples.zone "a" (Obj Examples.two_addresses))
    as (r & Hr & Htype & _).
  exists r. split; [exact Hr|]. rewrite Htype. by vm_compute.
Defined.



(** ** Facts about [fromZoneRecord_] and [toString] *)
Section fromZoneRecord_facts.
Context (zone : value) (type : string) (bindData : obj).

(** For a type of the table, the metadata handed to the constructor. *)
Lemma fromZoneRecord_run fields :
  zone_fields !! toLowerCase type = Some fields →
  fromZoneRecord_ zone type bindData =
    new_Record zone type
      (Obj {[ "data" := Str (join " " (replacement bindData <$> fields));
              "name" := get bindData "name";
              "ttl" := get bindData "ttl" ]}).
Proof.
  intros Hfields. unfold fromZoneRecord_, typeToZoneFormat_get.
  rewrite typeToZoneFormat_template_of, lookup_fmap, Hfields.
  cbn [fmap option_fmap option_map format mbind result_bind].
  by rewrite format_template_of by (by eapply zone_fields_no_close).
Qed.

(** The record built from such metadata when the formatted string is not
    empty. *)
Lemma new_Record_zone_metadata (s : string) (name ttl : value) :
  s ≠ "" →
  ∃ r, new_Record zone type
         (Obj {[ "data" := Str s; "name" := name; "ttl" := ttl ]}) = Ok r ∧
    r !! "data" = Some (Arr [Str s]) ∧
    r !! "rrdatas" = None ∧
    get r "name" = name ∧
    get r "ttl" = ttl.
Proof.
  intros Hs. set (m := ({[ "data" := Str s; "name" := name; "ttl" := ttl ]} : obj)).
  assert (Hdata : get m "data" = Str s).
  { unfold get, m. by rewrite lookup_insert_eq. }
  assert (Hname : m !! "name" = Some name).
  { unfold m. by rewrite lookup_insert_ne, lookup_insert_eq. }
  assert (Httl : m !! "ttl" = Some ttl).
  { unfold m. by rewrite !lookup_insert_ne, lookup_singleton_eq. }
  assert (Htruthy : truthy (Str s) = true) by (by destruct s).
  destruct (new_Record_Obj zone type m) as (json & Hjson & Hnew).
  rewrite (Hnew (Arr [Str s]))
    by (rewrite Hjson, Hdata, Htruthy; by decide_keys).
  eexists; split; [done|]. cbv zeta. cbn [truthy].
  split; [by rewrite lookup_delete_ne, lookup_insert_eq|].
  split; [apply lookup_delete_eq|].
  unfold get.
  rewrite !lookup_delete_ne, !lookup_insert_ne, !lookup_extend_this, !Hjson by done.
  rewrite Hdata, Htruthy, Hname, Httl, !lookup_base_other by done. decide_keys.
  by destruct name, ttl.
Qed.
End fromZoneRecord_facts.

Section toString_facts.
Implicit Types (this json : obj) (d : value).

Lemma replacement_insert_ne json k k' d :
  k ≠ k' → replacement (<[k := d]> json) k' = replacement json k'.
Proof. intros. unfold replacement. by rewrite lookup_insert_ne. Qed.

(** One line: the placeholders in the order of the template. *)
Lemma format_zone_line json d :
  format_string "{name} {ttl} IN {type} {rrdata}" (<["rrdata" := d]> json) =
    zone_line (replacement json "name") (replacement json "ttl")
      (replacement json "type") (ToString d).
Proof.
  unfold format_string, zone_line.
  change "{name} {ttl} IN {type} {rrdata}"
    with (placeholder "name" +:+ " " +:+ placeholder "ttl" +:+ " IN " +:+
          placeholder "type" +:+ " " +:+ placeholder "rrdata" +:+ "").
  rewrite format_scan_placeholder by done.
  change (format_scan ?a None (" " +:+ ?r)) with (" " +:+ format_scan a None r).
  rewrite format_scan_placeholder by done.
  change (format_scan ?a None (" IN " +:+ ?r)) with (" IN " +:+ format_scan a None r).
  rewrite format_scan_placeholder by done.
  change (format_scan ?a None (" " +:+ ?r)) with (" " +:+ format_scan a None r).
  rewrite format_scan_placeholder by done.
  rewrite !replacement_insert_ne by done.
  unfold replacement at 4. rewrite lookup_insert_eq.
  by rewrite append_nil_r.
Qed.

(** The callback keeps writing the same property of [json]. *)
Lemma toString_map_lines json (l : list value) :
  toString_map json l =
    Ok ((λ d, format_string "{name} {ttl} IN {type} {rrdata}"
                (<["rrdata" := d]> json)) <$> l).
Proof.
  revert json; induction l as [|d l IH]; intros json; [done|].
  cbn [toString_map]. unfold toString_line.
  cbn [format mbind result_bind mret result_ret].
  rewrite IH. cbn [mbind result_bind mret result_ret].
  rewrite fmap_cons. do 2 f_equal.
  apply list_fmap_ext. intros ? d' _. by rewrite insert_insert_eq.
Qed.

Lemma eval_toString this json :
  toJSON this = Ok (json, this) →
  eval toString this =
    match (if truthy (get json "rrdatas") then get json "rrdatas" else Arr [Obj ∅]) with
    | Arr l =>
        Ok (join newline
              ((λ d, format_string "{name} {ttl} IN {type} {rrdata}"
                       (<["rrdata" := d]> json)) <$> l))
    | _ => Throw (TypeError "map is not a function")
    end.
Proof.
  intros Hrun. unfold eval, toString, mbind at 1, M_bind at 1. rewrite Hrun.
  cbv zeta.
  destruct (if truthy (get json "rrdatas") then _ else _); try done.
  unfold mbind, M_bind, lift. by rewrite toString_map_lines.
Qed.
End toString_facts.



(** C2 (as the code has it).  For a type of the format table, looked up in
    lower case, and a field map that provides the fields of the type, the
    fields are substituted in the order of the table, separated by single
    spaces; when the resulting string is not empty, [fromZoneRecord_] builds
    a record whose [data] is the one-element sequence of that string and
    whose [name] and [ttl] are those of the field map.  For SOA the order
    is mname rname serial retry refresh expire minimum. *)
Theorem fromZoneRecord_data (zone : value) (type : string) (bindData : obj)
    (fields : list string) :
  zone_fields !! toLowerCase type = Some fields →
  (∀ f, f ∈ fields → is_Some (bindData !! f)) →
  join " " ((λ f, ToString (get bindData f)) <$> fields) ≠ "" →
  ∃ r, fromZoneRecord_ zone type bindData = Ok r ∧
    r !! "data" =
      Some (Arr [Str (join " " ((λ f, ToString (get bindData f)) <$> fields))]) ∧
    get r "name" = get bindData "name" ∧
    get r "ttl" = get bindData "ttl" ∧
    zone_fields !! "soa" =
      Some ["mname"; "rname"; "serial"; "retry"; "refresh"; "expire"; "minimum"].
Proof.
  intros Hfields Hprovided Hne.
  rewrite (fromZoneRecord_run _ _ _ _ Hfields).
  assert (Hsubst : replacement bindData <$> fields =
                   (λ f, ToString (get bindData f)) <$> fields).
  { apply list_fmap_ext. intros i f Hf%list_elem_of_lookup_2.
    destruct (Hprovided f Hf) as [v Hv].
    rewrite (replacement_Some _ _ _ Hv). unfold get. by rewrite Hv. }
  rewrite Hsubst.
  destruct (new_Record_zone_metadata zone type _ (get bindData "name")
              (get bindData "ttl") Hne) as (r & Hr & Hdata & _ & Hname & Httl).
  exists r. split_and!; [exact Hr | exact Hdata | exact Hname | exact Httl |].
  by vm_compute.
Qed.

Lemma fromZoneRecord_data_witness :
  ∃ r, fromZoneRecord_ Examples.zone "SOA" Examples.soa_fields = Ok r ∧
    r !! "data" =
      Some (Arr [Str "ns1.example.com. admin.example.com. 1 7200 3600 1209600 86400"]) ∧
    get r "name" = Str "example.com." ∧
    get r "ttl" = Num 21600.
Proof.
  destruct (fromZoneRecord_data Examples.zone "SOA" Examples.soa_fields
              ["mname"; "rname"; "serial"; "retry"; "refresh"; "expire"; "minimum"])
    as (r & Hr & Hdata & Hname & Httl & _).
  - by vm_compute.
  - intros f Hf.
    repeat (apply elem_of_cons in Hf as [->|Hf];
            [eexists; vm_compute; reflexivity|]).
    by apply elem_of_nil in Hf.
  - by vm_compute.
  - exists r. split; [exact Hr|].
    split; [rewrite Hdata; by vm_compute|].
    split; [rewrite Hname; by vm_compute|].
    rewrite Httl; by vm_compute.
Defined.

(** C2 as stated fails: a TXT record whose text is the empty string provides
    the field of its template, yet the record built has the empty string
    itself as [data], not a one-element sequence. *)
Lemma fromZoneRecord_empty_txt_data_not_sequence :
  ∃ r, fromZoneRecord_ Examples.zone "TXT" Examples.empty_txt = Ok r ∧
    zone_fields !! toLowerCase "TXT" = Some ["txt"] ∧
    Examples.empty_txt !! "txt" = Some (Str "") ∧
    r !! "data" = Some (Str "") ∧
    r !! "data" ≠ Some (Arr [Str ""]).
Proof.
  exists (Examples.built (fromZoneRecord_ Examples.zone "TXT" Examples.empty_txt)).
  split_and!; by vm_compute.
Qed.

(** C5 (as the code has it).  A field that the template of a supported type
    needs and the field map lacks raises nothing: [fromZoneRecord_] returns
    a record, and in its [data] the placeholder of the missing field stands
    as it is in the template, braces included, next to the fields that were
    given. *)
Theorem fromZoneRecord_missing_field (zone : value) (type : string) (bindData : obj)
    (fields : list string) (f : string) :
  zone_fields !! toLowerCase type = Some fields →
  f ∈ fields →
  bindData !! f = None →
  ∃ r, fromZoneRecord_ zone type bindData = Ok r ∧
    r !! "data" =
      Some (Arr [Str (join " " ((λ g, match bindData !! g with
                                      | Some v => ToString v
                                      | None => "{" +:+ g +:+ "}"
                                      end) <$> fields))]).
Proof.
  intros Hfields Hf Hmissing.
  rewrite (fromZoneRecord_run _ _ _ _ Hfields).
  destruct (new_Record_zone_metadata zone type
              (join " " (replacement bindData <$> fields))
              (get bindData "name") (get bindData "ttl"))
    as (r & Hr & Hdata & _).
  - apply (join_nonempty _ _ (replacement bindData f)).
    + apply list_elem_of_fmap. by exists f.
    + by apply replacement_nonempty_None.
  - exists r. split; [exact Hr|].
    rewrite Hdata. reflexivity.
Qed.

Lemma fromZoneRecord_missing_field_witness :
  ∃ r, fromZoneRecord_ Examples.zone "MX" Examples.mx_without_preference = Ok r ∧
    r !! "data" = Some (Arr [Str "{preference} mail.example.com."]).
Proof.
  destruct (fromZoneRecord_missing_field Examples.zone "MX"
              Examples.mx_without_preference ["preference"; "host"] "preference")
    as (r & Hr & Hdata).
  - by vm_compute.
  - apply elem_of_cons. by left.
  - by vm_compute.
  - exists r. split; [exact Hr|]. rewrite Hdata. by vm_compute.
Defined.

(** C5 as stated fails: the MX record without [preference] raises no error,
    [fromZoneRecord_] returns a record for it. *)
Lemma fromZoneRecord_missing_field_no_error :
  ∃ r, fromZoneRecord_ Examples.zone "MX" Examples.mx_without_preference = Ok r ∧
    zone_fields !! toLowerCase "MX" = Some ["preference"; "host"] ∧
    Examples.mx_without_preference !! "preference" = None ∧
    (∀ e, fromZoneRecord_ Examples.zone "MX" Examples.mx_without_preference ≠ Throw e) ∧
    r !! "data" = Some (Arr [Str "{preference} mail.example.com."]).
Proof.
  exists (Examples.built
            (fromZoneRecord_ Examples.zone "MX" Examples.mx_without_preference)).
  split_and!; [by vm_compute..| |by vm_compute].
  intros e. by vm_compute.
Qed.




(** A record without [data], built from [{name: 'example.com.', ttl: 300}]:
    the one line of the synthetic entry, which prints as an object does. *)
Example toString_no_data :
  eval toString (Examples.built (new_Record Examples.zone "a" (Obj Examples.no_data))) =
    Ok "example.com. 300 IN A [object Object]".
Proof. by vm_compute. Qed.

(** ** Further properties of the record *)

(** *** What [toJSON] returns *)
Section toJSON_output.
Implicit Types (this m json : obj) (t k : string).

Lemma truthy_get_delete (o : obj) k : truthy (get (delete k o) k) = false.
Proof. unfold get. by rewrite lookup_delete_eq. Qed.

(** The values [extend] puts in a fresh object are never [undefined]. *)
Lemma defined_lookup_recordObject m u k :
  defined (extend ∅ [Obj m; Obj {[ "type" := Str u ]}] !! k) =
    extend ∅ [Obj m; Obj {[ "type" := Str u ]}] !! k.
Proof.
  rewrite lookup_recordObject. case_decide; [done|]. apply defined_idemp.
Qed.

Lemma toJSON_lookup_defined this t m json k :
  get this "type" = Str t →
  get this "metadata" = Obj m →
  toJSON this = Ok (json, this) →
  defined (json !! k) = json !! k.
Proof.
  intros Ht Hm Hrun.
  destruct (toJSON_lookup this t m Ht Hm) as (json' & Hrun' & Hjson).
  rewrite Hrun in Hrun'. apply Ok_pair_inj in Hrun' as [<- _].
  rewrite Hjson. case_decide; [done|].
  destruct (truthy (get m "data")); [|apply defined_idemp].
  case_decide; [by destruct (get m "data")|].
  case_decide; [done|apply defined_idemp].
Qed.

Lemma toJSON_data_falsy this json this' :
  toJSON this = Ok (json, this') → truthy (get json "data") = false.
Proof.
  unfold toJSON, mbind, M_bind, this_get, lift, mret, M_ret.
  destruct (call_toUpperCase _); [|done].
  case_match eqn:Hdata; intros [<- _]%Ok_pair_inj.
  - apply truthy_get_delete.
  - exact Hdata.
Qed.

End toJSON_output.

(** X1.  What [toJSON] returns never has a truthy [data]: a truthy [data]
    of the metadata has become [rrdatas], which is then a sequence, and
    only a falsy one is left in place.  Its [type] is the upper-case type
    of the record. *)
Theorem toJSON_output_data_falsy (this : obj) (t : string) :
  get this "type" = Str t →
  ∃ json, eval toJSON this = Ok json ∧
    truthy (get json "data") = false ∧
    json !! "type" = Some (Str (toUpperCase t)) ∧
    (∀ m, get this "metadata" = Obj m → truthy (get m "data") = true →
       ∃ l, json !! "rrdatas" = Some (Arr l)).
Proof.
  intros Ht. destruct (toJSON_type this t Ht) as (json & Hrun & Htype).
  exists json. split; [by apply eval_toJSON|].
  split; [by eapply toJSON_data_falsy|]. split; [exact Htype|].
  intros m Hm Hdata.
  destruct (toJSON_lookup this t m Ht Hm) as (json' & Hrun' & Hjson).
  rewrite Hrun in Hrun'. apply Ok_pair_inj in Hrun' as [<- _].
  rewrite Hjson, Hdata. decide_keys.
  destruct (get m "data"); by eauto.
Qed.

Lemma toJSON_output_data_falsy_witness :
  ∃ json, eval toJSON Examples.a_record = Ok json ∧
    truthy (get json "data") = false.
Proof.
  destruct (toJSON_output_data_falsy Examples.a_record "A")
    as (json & Hrun & Hdata & _); [by vm_compute|].
  exists json. by split.
Defined.

(** X3.  What [toJSON] returns is a fixed point of it: a record of the same
    type whose metadata is that mapping serialises to the same mapping, with
    no property [undefined] in it. *)
Theorem toJSON_fixed_point (this this2 : obj) (t : string) (m json : obj) :
  get this "type" = Str t →
  get this "metadata" = Obj m →
  eval toJSON this = Ok json →
  get this2 "type" = Str t →
  get this2 "metadata" = Obj json →
  eval toJSON this2 = Ok json ∧ ∀ k, json !! k ≠ Some Undefined.
Proof.
  intros Ht Hm Heval Ht2 Hm2.
  destruct (toJSON_lookup this t m Ht Hm) as (json' & Hrun & _).
  rewrite (eval_toJSON _ _ Hrun) in Heval. apply Ok_inj in Heval as ->.
  assert (Hdef : ∀ k, defined (json !! k) = json !! k).
  { intros k. exact (toJSON_lookup_defined this t m json k Ht Hm Hrun). }
  split.
  - destruct (toJSON_lookup this2 t json Ht2 Hm2) as (json2 & Hrun2 & Hjson2).
    rewrite (eval_toJSON _ _ Hrun2). f_equal. apply map_eq. intros k.
    rewrite Hjson2, (toJSON_data_falsy _ _ _ Hrun), Hdef.
    case_decide as Hk; [|done]. subst k.
    destruct (toJSON_type this t Ht) as (json3 & Hrun3 & Htype).
    rewrite Hrun in Hrun3. apply Ok_pair_inj in Hrun3 as [<- _]. by rewrite Htype.
  - intros k Hk. specialize (Hdef k). rewrite Hk in Hdef. discriminate Hdef.
Qed.

Lemma toJSON_fixed_point_witness :
  eval toJSON (<["metadata" := Obj (Examples.built (eval toJSON Examples.a_record))]>
                 Examples.a_record) =
    Ok (Examples.built (eval toJSON Examples.a_record)).
Proof.
  apply (toJSON_fixed_point Examples.a_record _ "A" Examples.two_addresses);
    by vm_compute.
Defined.

(** *** What the constructor leaves on the record *)
Section constructor_fields.
Context (zone : value) (type : string) (m : obj).

(** The record built from object metadata, property by property: the
    upper-case [type], and, but for [data] and [rrdatas], every defined
    field of the metadata over what the constructor assigned. *)
Lemma new_Record_fields :
  ∃ r, new_Record zone type (Obj m) = Ok r ∧
    r !! "type" = Some (Str (toUpperCase type)) ∧
    ∀ k, k ≠ "data" → k ≠ "rrdatas" → k ≠ "type" →
      r !! k = overlay (defined (m !! k)) (assigned zone type (Obj m) !! k).
Proof.
  destruct (new_Record_Obj zone type m) as (json & Hjson & Hnew).
  rewrite (Hnew _ eq_refl). eexists; split; [reflexivity|]. cbv zeta.
  assert (Hother : ∀ k, k ≠ "data" → k ≠ "rrdatas" →
    (if truthy (default Undefined (defined (json !! "rrdatas")))
     then delete "rrdatas"
            (<["data" := default Undefined (defined (json !! "rrdatas"))]>
               (extend (assigned zone type (Obj m)) [Obj json]))
     else extend (assigned zone type (Obj m)) [Obj json]) !! k =
    overlay (defined (json !! k)) (assigned zone type (Obj m) !! k)).
  { intros k ? ?.
    destruct (truthy (default Undefined (defined (json !! "rrdatas"))));
      [|apply lookup_extend_this].
    rewrite lookup_delete_ne, lookup_insert_ne by done. apply lookup_extend_this. }
  split.
  - rewrite Hother, Hjson by key_solver. by decide_keys.
  - intros k ? ? ?. rewrite Hother, Hjson by assumption. decide_keys.
    destruct (truthy _); by rewrite defined_idemp.
Qed.

Lemma lookup_assigned_fresh k :
  k ≠ "metadata" → k ≠ "type" → k ≠ "zone_" → assigned zone type (Obj m) !! k = None.
Proof. apply lookup_base_other. Qed.
End constructor_fields.

(** X4.  The constructor copies the fields of the metadata onto the record:
    each defined field other than [type], [data] and [rrdatas] can be read
    from the record under its own name ([record.name], [record.ttl]), the
    zone and the metadata are kept under [zone_] and [metadata], and a field
    of the metadata that is itself called [zone_] or [metadata] replaces
    what the constructor had stored there. *)
Theorem new_Record_copies_metadata_fields (zone : value) (type : string) (m : obj) :
  ∃ r, new_Record zone type (Obj m) = Ok r ∧
    (∀ k, k ≠ "data" → k ≠ "rrdatas" → k ≠ "type" → k ≠ "zone_" → k ≠ "metadata" →
       r !! k = defined (m !! k)) ∧
    r !! "zone_" = Some (default zone (defined (m !! "zone_"))) ∧
    r !! "metadata" = Some (default (Obj m) (defined (m !! "metadata"))).
Proof.
  destruct (new_Record_fields zone type m) as (r & Hr & _ & Hfields).
  exists r. split; [exact Hr|]. clear Hr. split_and!.
  - intros k ? ? ? ? ?. rewrite Hfields, lookup_assigned_fresh by assumption.
    by destruct (defined _).
  - rewrite Hfields by key_solver. unfold assigned.
    rewrite !lookup_insert_ne, lookup_insert_eq by key_solver.
    by destruct (defined _).
  - rewrite Hfields by key_solver. unfold assigned. rewrite lookup_insert_eq.
    by destruct (defined _).
Qed.

(** X5.  A wire object goes through a record unchanged.  For metadata as
    the API returns it, with no truthy [data] and no field called
    [metadata], the record built from it serialises to the defined fields
    of that metadata, [rrdatas] included, with [type] set to the upper-case
    type. *)
Theorem new_Record_toJSON_wire (zone : value) (type : string) (m : obj) :
  truthy (get m "data") = false →
  defined (m !! "metadata") = None →
  ∃ r json, new_Record zone type (Obj m) = Ok r ∧
    eval toJSON r = Ok json ∧
    ∀ k, json !! k =
      if decide (k = "type") then Some (Str (toUpperCase type)) else defined (m !! k).
Proof.
  intros Hdata Hmeta.
  destruct (new_Record_fields zone type m) as (r & Hr & Htype & Hfields).
  destruct (toJSON_lookup r (toUpperCase type) m) as (json & Hrun & Hjson).
  - unfold get. by rewrite Htype.
  - unfold get. rewrite Hfields, Hmeta by key_solver.
    unfold assigned. by rewrite lookup_insert_eq.
  - exists r, json. split; [exact Hr|]. split; [by apply eval_toJSON|].
    intros k. by rewrite Hjson, Hdata, toUpperCase_idemp.
Qed.

Lemma new_Record_toJSON_wire_witness :
  ∃ r json, new_Record Examples.zone "mx" (Obj MoreExamples.wire_mx) = Ok r ∧
    eval toJSON r = Ok json ∧
    json !! "rrdatas" =
      Some (Arr [Str "10 mail.example.com."; Str "20 mail2.example.com."]) ∧
    json !! "kind" = Some (Str "dns#resourceRecordSet").
Proof.
  destruct (new_Record_toJSON_wire Examples.zone "mx" MoreExamples.wire_mx)
    as (r & json & Hr & Hrun & Hjson); [by vm_compute | by vm_compute |].
  exists r, json. split; [exact Hr|]. split; [exact Hrun|].
  rewrite !Hjson. split; by vm_compute.
Defined.

(** *** The case of the type *)
Section type_case.
Implicit Types (s t : string) (c : ascii).

Lemma upper_lower_ascii c : upper_ascii (lower_ascii c) = upper_ascii c.
Proof. by destruct c as [[] [] [] [] [] [] [] []]. Qed.

Lemma toUpperCase_toLowerCase s : toUpperCase (toLowerCase s) = toUpperCase s.
Proof. induction s as [|c s IH]; simpl; [done|]. by rewrite upper_lower_ascii, IH. Qed.

Lemma toLowerCase_eq_toUpperCase_eq s t :
  toLowerCase s = toLowerCase t → toUpperCase s = toUpperCase t.
Proof.
  intros Heq. by rewrite <-(toUpperCase_toLowerCase s), Heq, toUpperCase_toLowerCase.
Qed.

Lemma lookup_assigned_ne zone t t' metadata k :
  k ≠ "type" → assigned zone t metadata !! k = assigned zone t' metadata !! k.
Proof.
  intros Hk. unfold assigned.
  destruct (decide (k = "metadata")) as [->|Hm]; [by rewrite !lookup_insert_eq|].
  rewrite !(lookup_insert_ne _ "metadata"), !(lookup_insert_ne _ "type") by done.
  reflexivity.
Qed.

Lemma new_Record_upper_eq zone t t' metadata :
  toUpperCase t = toUpperCase t' →
  new_Record zone t metadata = new_Record zone t' metadata.
Proof.
  intros Hup.
  destruct (new_Record_run zone t metadata) as (json & Hrun & ->).
  destruct (new_Record_run zone t' metadata) as (json' & Hrun' & ->).
  destruct (toJSON_type _ _ (get_base_type zone t metadata)) as (j & Hj & Htype).
  rewrite Hrun in Hj. apply Ok_pair_inj in Hj as [<- _].
  rewrite (toJSON_run _ _ (get_base_type zone t metadata)) in Hrun.
  rewrite (toJSON_run _ _ (get_base_type zone t' metadata)) in Hrun'.
  rewrite !get_base_metadata, <-Hup in Hrun'.
  rewrite !get_base_metadata in Hrun.
  apply Ok_pair_inj in Hrun as [Hjson _]. apply Ok_pair_inj in Hrun' as [Hjson' _].
  assert (json' = json) as -> by (by rewrite <-Hjson, <-Hjson').
  clear Hjson Hjson'.
  assert (extend (assigned zone t metadata) [Obj json] =
          extend (assigned zone t' metadata) [Obj json]) as ->; [|reflexivity].
  apply map_eq. intros k. rewrite !lookup_extend_this.
  destruct (decide (k = "type")) as [->|Hk]; [by rewrite Htype|].
  by rewrite (lookup_assigned_ne zone t t').
Qed.
End type_case.

(** X6.  The type of a record is case-insensitive.  Two types that differ
    only in the case of their letters build the same record from the same
    metadata, and import the same record from the same zone-file fields. *)
Theorem new_Record_case_insensitive (zone : value) (type type' : string) :
  toLowerCase type = toLowerCase type' →
  (∀ metadata, new_Record zone type metadata = new_Record zone type' metadata) ∧
  (∀ bindData, fromZoneRecord_ zone type bindData = fromZoneRecord_ zone type' bindData).
Proof.
  intros Hlow.
  assert (Hnew : ∀ metadata,
            new_Record zone type metadata = new_Record zone type' metadata).
  { intros metadata. by apply new_Record_upper_eq, toLowerCase_eq_toUpperCase_eq. }
  split; [exact Hnew|].
  intros bindData. unfold fromZoneRecord_. rewrite Hlow.
  destruct (format _ _); [apply Hnew|reflexivity].
Qed.

Lemma new_Record_case_insensitive_witness :
  fromZoneRecord_ Examples.zone "mx" MoreExamples.mx_fields =
    fromZoneRecord_ Examples.zone "Mx" MoreExamples.mx_fields.
Proof.
  apply (new_Record_case_insensitive Examples.zone "mx" "Mx"). reflexivity.
Defined.

(** *** Rendering *)
Section rendering.
Implicit Types (this m json : obj) (l : list value).

(** The lines of a record whose [toJSON] has a sequence for [rrdatas]. *)
Lemma eval_toString_Arr this json l :
  toJSON this = Ok (json, this) →
  json !! "rrdatas" = Some (Arr l) →
  eval toString this =
    Ok (join newline
          ((λ d, zone_line (replacement json "name") (replacement json "ttl")
                   (replacement json "type") (ToString d)) <$> l)).
Proof.
  intros Hrun Hrr. rewrite (eval_toString _ _ Hrun). unfold get. rewrite Hrr.
  cbn [default truthy]. do 2 f_equal. apply list_fmap_ext.
  intros i d _. apply format_zone_line.
Qed.

(** The one line of a record whose [toJSON] has no truthy [rrdatas]. *)
Lemma eval_toString_falsy this json :
  toJSON this = Ok (json, this) →
  truthy (get json "rrdatas") = false →
  eval toString this =
    Ok (zone_line (replacement json "name") (replacement json "ttl")
          (replacement json "type") "[object Object]").
Proof.
  intros Hrun Hrr. rewrite (eval_toString _ _ Hrun), Hrr.
  cbn [fmap list_fmap join]. by rewrite format_zone_line.
Qed.


(** The record built from metadata with a name, a TTL and a truthy [data]. *)
Lemma toString_new_Record zone (type : string) m (n t : value) l :
  defined (m !! "metadata") = None →
  defined (m !! "name") = Some n →
  defined (m !! "ttl") = Some t →
  truthy (get m "data") = true →
  arrify (get m "data") = Arr l →
  ∃ r, new_Record zone type (Obj m) = Ok r ∧
    eval toString r =
      Ok (join newline
            ((λ d, zone_line (ToString n) (ToString t) (toUpperCase type)
                     (ToString d)) <$> l)).
Proof.
  intros Hmeta Hname Httl Hdata Harr.
  destruct (new_Record_fields zone type m) as (r & Hr & Htype & Hfields).
  exists r. split; [exact Hr|]. clear Hr.
  destruct (toJSON_lookup r (toUpperCase type) m) as (json & Hrun & Hjson).
  { unfold get. by rewrite Htype. }
  { unfold get. rewrite Hfields, Hmeta by key_solver.
    unfold assigned. by rewrite lookup_insert_eq. }
  rewrite (eval_toString_Arr r json l Hrun).
  - do 2 f_equal. apply list_fmap_ext. intros i d _.
    unfold replacement. rewrite !Hjson, Hdata. decide_keys.
    by rewrite Hname, Httl, toUpperCase_idemp.
  - rewrite Hjson, Hdata, Harr. by decide_keys.
Qed.


End rendering.





(** X9.  Import composed with [toString].  For a type of the table and
    zone-file fields that give a name, a TTL and the fields of the type, the
    imported record renders to the one zone-file line made of that name, that
    TTL, the upper-case type and the fields in the order of the table. *)
Theorem fromZoneRecord_toString (zone : value) (type : string) (bindData : obj)
    (fields : list string) (n t : value) :
  zone_fields !! toLowerCase type = Some fields →
  (∀ f, f ∈ fields → is_Some (bindData !! f)) →
  join " " ((λ f, ToString (get bindData f)) <$> fields) ≠ "" →
  bindData !! "name" = Some n → n ≠ Undefined →
  bindData !! "ttl" = Some t → t ≠ Undefined →
  ∃ r, fromZoneRecord_ zone type bindData = Ok r ∧
    eval toString r =
      Ok (zone_line (ToString n) (ToString t) (toUpperCase type)
            (join " " ((λ f, ToString (get bindData f)) <$> fields))).
Proof.
  intros Hfields Hprovided Hne Hname Hn Httl Ht.
  rewrite (fromZoneRecord_run _ _ _ _ Hfields).
  assert (Hsubst : replacement bindData <$> fields =
                   (λ f, ToString (get bindData f)) <$> fields).
  { apply list_fmap_ext. intros i f Hf%list_elem_of_lookup_2.
    destruct (Hprovided f Hf) as [v Hv].
    rewrite (replacement_Some _ _ _ Hv). unfold get. by rewrite Hv. }
  rewrite Hsubst.
  set (s := join " " ((λ f, ToString (get bindData f)) <$> fields)) in *.
  apply (toString_new_Record zone type _ n t [Str s]).
  - by rewrite !lookup_insert_ne, lookup_singleton_ne.
  - rewrite lookup_insert_ne, lookup_insert_eq by done.
    unfold get. rewrite Hname. by destruct n.
  - rewrite !lookup_insert_ne, lookup_singleton_eq by done.
    unfold get. rewrite Httl. by destruct t.
  - unfold get. rewrite lookup_insert_eq. by destruct s.
  - unfold get. by rewrite lookup_insert_eq.
Qed.

Lemma fromZoneRecord_toString_witness :
  ∃ r, fromZoneRecord_ Examples.zone "MX" MoreExamples.mx_fields = Ok r ∧
    eval toString r = Ok "example.com. 3600 IN MX 10 mail.example.com.".
Proof.
  destruct (fromZoneRecord_toString Examples.zone "MX" MoreExamples.mx_fields
              ["preference"; "host"] (Str "example.com.") (Num 3600))
    as (r & Hr & Hs); [by vm_compute | | by vm_compute..|].
  - intros f Hf.
    repeat (apply elem_of_cons in Hf as [->|Hf];
            [eexists; vm_compute; reflexivity|]).
    by apply elem_of_nil in Hf.
  - exists r. split; [exact Hr|]. rewrite Hs. by vm_compute.
Defined.

(** X10.  [fromZoneRecord_] fails on the type alone: it returns a record
    exactly when the lower-case type is in the format table, whatever the
    fields are. *)
Theorem fromZoneRecord_succeeds_iff (zone : value) (type : string) (bindData : obj) :
  (∃ r, fromZoneRecord_ zone type bindData = Ok r) ↔
  is_Some (typeToZoneFormat !! toLowerCase type).
Proof.
  unfold fromZoneRecord_, typeToZoneFormat_get.
  destruct (typeToZoneFormat !! toLowerCase type) as [template|]; split.
  - by eauto.
  - intros _. cbn [format mbind result_bind].
    destruct (new_Record_run zone type
                (Obj {[ "data" := Str (format_string template bindData);
                        "name" := get bindData "name";
                        "ttl" := get bindData "ttl" ]}))
      as (json & _ & Hnew).
    eexists. exact Hnew.
  - intros [r Hr]. case_bool_decide; discriminate Hr.
  - intros [v [=]].
Qed.

(** *** A record without metadata *)
Section without_metadata.
Implicit Types (this : obj) (t : string).

Lemma recordObject_nullish (metadata : value) (u : string) :
  metadata = Undefined ∨ metadata = Null →
  extend ∅ [metadata; Obj {[ "type" := Str u ]}] = {[ "type" := Str u ]}.
Proof.
  intros Hnull. unfold extend; cbn [foldl]. rewrite (extend_one_nullish _ _ Hnull).
  apply map_eq. intros k. rewrite lookup_extend_one_Obj, lookup_empty.
  destruct (decide (k = "type")) as [->|Hk].
  - by rewrite lookup_singleton_eq.
  - by rewrite lookup_singleton_ne.
Qed.

Lemma toJSON_nullish this t :
  get this "type" = Str t →
  get this "metadata" = Undefined ∨ get this "metadata" = Null →
  toJSON this = Ok ({[ "type" := Str (toUpperCase t) ]}, this).
Proof.
  intros Ht Hnull. rewrite (toJSON_run _ _ Ht). cbv zeta.
  rewrite (recordObject_nullish _ _ Hnull).
  unfold get at 1. by rewrite lookup_singleton_ne.
Qed.
End without_metadata.

(** X11.  A record built without metadata ([undefined] or [null]) has no
    [data]; it serialises to its upper-case [type] alone, and renders to one
    line in which the placeholders of the name and the TTL are left as they
    are in the template. *)
Theorem new_Record_without_metadata (zone : value) (type : string) (metadata : value) :
  metadata = Undefined ∨ metadata = Null →
  ∃ r, new_Record zone type metadata = Ok r ∧
    r !! "data" = None ∧
    eval toJSON r = Ok {[ "type" := Str (toUpperCase type) ]} ∧
    eval toString r =
      Ok (zone_line "{name}" "{ttl}" (toUpperCase type) "[object Object]").
Proof.
  intros Hnull.
  destruct (new_Record_run zone type metadata) as (json & Hrun & ->).
  rewrite (toJSON_nullish _ type (get_base_type zone type metadata)) in Hrun
    by (by rewrite get_base_metadata).
  apply Ok_pair_inj in Hrun as [<- _]. cbv zeta.
  set (r := extend (assigned zone type metadata) [Obj {[ "type" := Str (toUpperCase type) ]}]).
  assert (Hlookup : ∀ k, k ≠ "type" → r !! k = assigned zone type metadata !! k).
  { intros k Hk. unfold r. by rewrite lookup_extend_this, lookup_singleton_ne. }
  assert (Hrr : get r "rrdatas" = Undefined).
  { unfold get. by rewrite Hlookup, lookup_base_other. }
  rewrite Hrr. cbn [truthy]. exists r. split; [reflexivity|].
  assert (Hrun : toJSON r = Ok ({[ "type" := Str (toUpperCase type) ]}, r)).
  { assert (Hidemp := toJSON_nullish r (toUpperCase type)).
    rewrite toUpperCase_idemp in Hidemp. apply Hidemp.
    - unfold get, r. by rewrite lookup_extend_this, lookup_singleton_eq.
    - unfold get. rewrite Hlookup by key_solver.
      unfold assigned. rewrite lookup_insert_eq. exact Hnull. }
  split_and!.
  - rewrite Hlookup by key_solver. by apply lookup_base_other.
  - by apply eval_toJSON.
  - rewrite (eval_toString_falsy _ _ Hrun).
    + unfold replacement. rewrite !lookup_singleton_ne by key_solver.
      by rewrite lookup_singleton_eq.
    + unfold get. by rewrite lookup_singleton_ne.
Qed.

Lemma new_Record_without_metadata_witness :
  ∃ r, new_Record Examples.zone "a" Undefined = Ok r ∧
    eval toString r = Ok "{name} {ttl} IN A [object Object]".
Proof.
  destruct (new_Record_without_metadata Examples.zone "a" Undefined)
    as (r & Hr & _ & _ & Hs); [by left|].
  exists r. split; [exact Hr|]. rewrite Hs. by vm_compute.
Defined.

(** ** Properties of [Change.prototype.create] *)
Section create_facts.
Import Change.
Context (createChange : value → value * value * value).
Implicit Types (this : obj) (config err change apiResponse : value).

Lemma get_insert_eq this (k : string) (v : value) : get (<[k := v]> this) k = v.
Proof. unfold get. by rewrite lookup_insert_eq. Qed.

Lemma get_insert_ne this (k k' : string) (v : value) :
  k ≠ k' → get (<[k := v]> this) k' = get this k'.
Proof. intros. unfold get. by rewrite lookup_insert_ne. Qed.

(** X13.  The three outcomes of [create], by what the parent answers.  On
    a truthy error the callback gets that error, [null] for the change and
    the API response, and nothing is assigned: the receiver is as it was,
    its [id] and [metadata] included.  On no error and a change object the
    receiver takes the [id] and the [metadata] of that change and keeps
    every other property, and the callback gets [null], the receiver as
    updated and the API response.  On no error and no change ([null] or
    [undefined]) reading the [id] of the change throws, and the callback is
    not called. *)
Theorem create_outcomes this config err change apiResponse :
  createChange config = (err, change, apiResponse) →
  (truthy err = true →
     create createChange config this = Ok (Call err Null apiResponse, this)) ∧
  (truthy err = false → ∀ c : obj, change = Obj c →
     ∃ this', create createChange config this =
                Ok (Call Null (Obj this') apiResponse, this') ∧
       get this' "id" = get c "id" ∧
       get this' "metadata" = get c "metadata" ∧
       ∀ k, k ≠ "id" → k ≠ "metadata" → this' !! k = this !! k) ∧
  (truthy err = false → change = Undefined ∨ change = Null →
     ∃ msg, create createChange config this = Throw (TypeError msg)).
Proof.
  intros Hanswer. unfold create, create_done. rewrite Hanswer. split_and!.
  - by intros ->.
  - intros -> c ->.
    exists (<["metadata" := get c "metadata"]> (<["id" := get c "id"]> this)).
    split; [reflexivity|]. split_and!.
    + by rewrite get_insert_ne, get_insert_eq.
    + by rewrite get_insert_eq.
    + intros k ? ?. by rewrite !lookup_insert_ne.
  - intros -> [-> | ->]; by eauto.
Qed.
End create_facts.

Lemma create_outcomes_witness :
  Change.create MoreExamples.failing Null MoreExamples.new_change =
    Ok (Change.Call MoreExamples.api_error Null MoreExamples.api_response,
        MoreExamples.new_change) ∧
  (∃ this', Change.create MoreExamples.succeeding Null MoreExamples.new_change =
              Ok (Change.Call Null (Obj this') MoreExamples.api_response, this') ∧
     get this' "id" = Str "7") ∧
  ∃ msg, Change.create MoreExamples.answering_nothing Null MoreExamples.new_change =
           Throw (TypeError msg).
Proof.
  split_and!.
  - apply (create_outcomes MoreExamples.failing MoreExamples.new_change Null
             MoreExamples.api_error Null MoreExamples.api_response);
      reflexivity.
  - destruct (create_outcomes MoreExamples.succeeding MoreExamples.new_change Null
                Null (Obj MoreExamples.created_change) MoreExamples.api_response
                eq_refl) as (_ & Hsuccess & _).
    destruct (Hsuccess eq_refl MoreExamples.created_change eq_refl)
      as (this' & Hrun & Hid & _).
    exists this'. split; [exact Hrun|]. rewrite Hid. by vm_compute.
  - apply (create_outcomes MoreExamples.answering_nothing MoreExamples.new_change
             Null Null Undefined MoreExamples.api_response);
      [reflexivity | reflexivity | by left].
Defined.

(** X15.  [toJSON] needs a string for [type]: on a receiver whose [type] is
    anything else (or missing) it throws, and so does [toString]; with a
    string there it returns. *)
Theorem toJSON_throws_iff (this : obj) :
  ((∃ e, eval toJSON this = Throw e) ↔ ∀ t, get this "type" ≠ Str t) ∧
  ((∀ t, get this "type" ≠ Str t) → ∃ e, eval toString this = Throw e).
Proof.
  unfold eval, toString, mbind at 1, M_bind at 1.
  unfold toJSON, mbind, M_bind, this_get, lift, mret, M_ret.
  destruct (get this "type") as [| |b|n|s|l|o]; cbn [call_toUpperCase];
    try (split; [split; [intros _ t; discriminate | intros _; by eauto]
                | intros _; by eauto]).
  split; [split|].
  - intros [e He]. destruct (truthy _); discriminate He.
  - intros Hno. by destruct (Hno s).
  - intros Hno. by destruct (Hno s).
Qed.
